(** Shallow embedding of [check_braces.py]: a script that reads a fixed
    file, keeps a running brace balance line by line, stops at the first
    line where the balance goes negative, and prints a final report. *)

From Stdlib Require Import List String Ascii ZArith NArith Bool Lia.
Import ListNotations.
Open Scope string_scope.

(* ------------------------------------------------------------------ *)
(** * Printing integers: Python's [f"{balance}"] *)

Fixpoint digits_N (fuel : nat) (n : N) (acc : string) : string :=
  match fuel with
  | O => acc
  | S f =>
      let acc' := String (ascii_of_N (48 + N.modulo n 10)) acc in
      if N.ltb n 10 then acc' else digits_N f (N.div n 10) acc'
  end.

Definition string_of_N (n : N) : string := digits_N (S (N.size_nat n)) n "".

Definition string_of_Z (z : Z) : string :=
  if Z.ltb z 0 then "-" ++ string_of_N (Z.to_N (- z))
  else string_of_N (Z.to_N z).

Definition string_of_nat (n : nat) : string := string_of_Z (Z.of_nat n).

(* ------------------------------------------------------------------ *)
(** * [str.count] for a one-character needle *)

Fixpoint count_char (c : ascii) (s : string) : Z :=
  match s with
  | EmptyString => 0
  | String d t => (if Ascii.eqb c d then 1 else 0) + count_char c t
  end%Z.

(** Totals over a list of lines, used to state the claims. *)
Fixpoint total_count (c : ascii) (lines : list string) : Z :=
  match lines with
  | [] => 0
  | l :: rest => count_char c l + total_count c rest
  end%Z.

Definition net (lines : list string) : Z :=
  (total_count "{"%char lines - total_count "}"%char lines)%Z.

(* ------------------------------------------------------------------ *)
(** * The printed messages (lines 11, 18 and 20) *)

Definition neg_msg (i : nat) (balance : Z) : string :=
  "Negative balance at line " ++ string_of_nat i ++ ": " ++ string_of_Z balance.

Definition missing_msg (balance : Z) : string :=
  "Missing " ++ string_of_Z balance ++ " closing braces at end of file".

Definition balance_msg (balance : Z) : string :=
  "Balance is " ++ string_of_Z balance.

(* ------------------------------------------------------------------ *)
(** * The scan loop (lines 6-15)

    The loop state: the loop variable [i] (last line number bound by
    [enumerate], 0 before the first iteration), [balance], the lines
    printed so far and whether [break] was executed. *)

Record scan_state := mk_state {
  i : nat;
  balance : Z;
  printed : list string;
  broke : bool
}.

Definition init_state : scan_state :=
  {| i := 0; balance := 0; printed := []; broke := false |}.

(** One iteration of the loop body, lines 8-15. *)
Definition body (st : scan_state) (idx : nat) (line : string) : scan_state :=
  let balance1 := (balance st + count_char "{"%char line)%Z in
  let balance2 := (balance1 - count_char "}"%char line)%Z in
  if Z.ltb balance2 0 then
    {| i := idx; balance := balance2;
       printed := printed st ++ [neg_msg idx balance2]; broke := true |}
  else if Z.eqb balance2 0 && Nat.ltb 700 idx then
    (* pass *)
    {| i := idx; balance := balance2; printed := printed st; broke := false |}
  else
    {| i := idx; balance := balance2; printed := printed st; broke := false |}.

(** [for i, line in enumerate(lines, 1)], leaving the loop on [break]. *)
Fixpoint for_loop (idx : nat) (lines : list string) (st : scan_state)
  : scan_state :=
  match lines with
  | [] => st
  | line :: rest =>
      let st' := body st idx line in
      if broke st' then st' else for_loop (S idx) rest st'
  end.

Definition scan (lines : list string) : scan_state :=
  for_loop 1 lines init_state.

(** The final report, lines 17-20. *)
Definition report (balance : Z) : string :=
  if Z.ltb 0 balance then missing_msg balance else balance_msg balance.

(** Everything the module body prints for the lines it read. *)
Definition run_lines (lines : list string) : list string :=
  let st := scan lines in
  printed st ++ [report (balance st)].

(* ------------------------------------------------------------------ *)
(** * The module body (lines 3-20)

    [open(path, 'r')] and [f.readlines()]: the file system is seen through
    the result of reading the fixed path, either its decoded text or the
    error that [open] or the decoding raised. *)

Inductive read_error := IOError | DecodeError.

Inductive read_result :=
| ReadFailed (e : read_error)
| ReadText (s : string).

Definition path : string := "E:\Golang\OpenCode\Vinylfo\static\js\playlist.js".

(** Text mode applies universal newlines: "\r\n" and a lone "\r" read as "\n". *)
Fixpoint translate_newlines (s : string) : string :=
  match s with
  | EmptyString => EmptyString
  | String c t =>
      if Ascii.eqb c "013"%char then
        match t with
        | String d t' =>
            if Ascii.eqb d "010"%char then String "010"%char (translate_newlines t')
            else String "010"%char (translate_newlines t)
        | EmptyString => String "010"%char EmptyString
        end
      else String c (translate_newlines t)
  end.

(** [readlines]: every line keeps its terminating newline; a last line
    without one is kept as it is. *)
Fixpoint split_lines (s : string) (cur : string) : list string :=
  match s with
  | EmptyString => match cur with EmptyString => [] | _ => [cur] end
  | String c t =>
      if Ascii.eqb c "010"%char then (cur ++ String c EmptyString) :: split_lines t ""
      else split_lines t (cur ++ String c EmptyString)
  end.

Definition readlines (s : string) : list string :=
  split_lines (translate_newlines s) "".

(** A run either raises (the exception propagates out of the script,
    nothing caught) or finishes; each carries what was printed to stdout. *)
Inductive outcome :=
| Raised (e : read_error) (stdout : list string)
| Finished (stdout : list string).

Definition main (fs : string -> read_result) : outcome :=
  match fs path with
  | ReadFailed e => Raised e []
  | ReadText s => Finished (run_lines (readlines s))
  end.

(* ------------------------------------------------------------------ *)
(** * The loop with the [balance == 0 and i > 700] branch removed *)

Definition body_clean (st : scan_state) (idx : nat) (line : string) : scan_state :=
  let balance1 := (balance st + count_char "{"%char line)%Z in
  let balance2 := (balance1 - count_char "}"%char line)%Z in
  if Z.ltb balance2 0 then
    {| i := idx; balance := balance2;
       printed := printed st ++ [neg_msg idx balance2]; broke := true |}
  else
    {| i := idx; balance := balance2; printed := printed st; broke := false |}.

Fixpoint for_loop_clean (idx : nat) (lines : list string) (st : scan_state)
  : scan_state :=
  match lines with
  | [] => st
  | line :: rest =>
      let st' := body_clean st idx line in
      if broke st' then st' else for_loop_clean (S idx) rest st'
  end.

Definition run_lines_clean (lines : list string) : list string :=
  let st := for_loop_clean 1 lines init_state in
  printed st ++ [report (balance st)].

Definition main_clean (fs : string -> read_result) : outcome :=
  match fs path with
  | ReadFailed e => Raised e []
  | ReadText s => Finished (run_lines_clean (readlines s))
  end.

(* ------------------------------------------------------------------ *)
(** * Helpers for stating properties of reading and printing *)

(** [''.join(lines)]. *)
Definition join_lines (lines : list string) : string :=
  fold_right String.append "" lines.



(* ------------------------------------------------------------------ *)
(** * Tests *)

Example run_ex1 : run_lines ["{"; "{"; "}"] = ["Missing 1 closing braces at end of file"].
Proof. reflexivity. Qed.

Example run_ex2 : run_lines ["}"] =
  ["Negative balance at line 1: -1"; "Balance is -1"].
Proof. reflexivity. Qed.

Example run_ex3 : run_lines ["{"; "}"; "{"; "}"] = ["Balance is 0"].
Proof. reflexivity. Qed.

Example run_ex4 : run_lines ["{{{ }"; "}}}}"; "{"] =
  ["Negative balance at line 2: -2"; "Balance is -2"].
Proof. reflexivity. Qed.

Example str_ex : string_of_Z 1234 = "1234" /\ string_of_Z (-70) = "-70"
  /\ string_of_Z 0 = "0".
Proof. repeat split; reflexivity. Qed.

Example readlines_ex : readlines ("a{" ++ String "013" (String "010" "}") ++ String "013" "b")
  = [String "a" (String "{" (String "010" "")); String "}" (String "010" ""); "b"].
Proof. reflexivity. Qed.

Close Scope string_scope.

(* ------------------------------------------------------------------ *)
(** * Balance arithmetic *)

Lemma total_count_app (c : ascii) (a b : list string) :
  total_count c (a ++ b) = (total_count c a + total_count c b)%Z.
Proof. induction a as [|x a IH]; simpl; [reflexivity | rewrite IH; lia]. Qed.

Lemma net_snoc (pre : list string) (a : string) :
  net (pre ++ [a]) =
  (net pre + count_char "{"%char a - count_char "}"%char a)%Z.
Proof. unfold net; rewrite !total_count_app; simpl; lia. Qed.

Lemma firstn_snoc (pre rest : list string) (a : string) :
  firstn (S (List.length pre)) (pre ++ a :: rest) = pre ++ [a].
Proof.
  induction pre as [|x pre IH]; simpl; [reflexivity|].
  f_equal; exact IH.
Qed.

Lemma firstn_le_app (pre rest : list string) (j : nat) :
  j <= List.length pre -> firstn j (pre ++ rest) = firstn j pre.
Proof.
  intros Hj; rewrite firstn_app.
  replace (j - List.length pre) with 0 by lia; simpl; apply app_nil_r.
Qed.

(* ------------------------------------------------------------------ *)
(** * What the loop computes

    Started after the lines [pre] with the balance of [pre], the loop
    either runs through all lines, every prefix having a non-negative
    balance, or stops at the first line [L] whose prefix balance is
    negative, having printed exactly the one message for [L]. *)

Lemma for_loop_outcome (rest pre : list string) (st : scan_state) :
  i st = List.length pre -> balance st = net pre ->
  printed st = [] -> broke st = false ->
  let all := pre ++ rest in
  let st' := for_loop (S (List.length pre)) rest st in
  ((forall j, List.length pre < j <= List.length all -> (0 <= net (firstn j all))%Z) /\
   st' = {| i := List.length all; balance := net all; printed := []; broke := false |})
  \/
  (exists L, List.length pre < L <= List.length all /\
     (forall j, List.length pre < j < L -> (0 <= net (firstn j all))%Z) /\
     (net (firstn L all) < 0)%Z /\
     st' = {| i := L; balance := net (firstn L all);
              printed := [neg_msg L (net (firstn L all))]; broke := true |}).
Proof.
  revert pre st.
  induction rest as [|a rest IH]; intros pre st Hi Hb Hp Hk all st'.
  - left; subst all st'; rewrite app_nil_r; split; [intros; lia|].
    destruct st as [i0 b0 p0 k0]; simpl in *; subst; reflexivity.
  - assert (Hsnoc := firstn_snoc pre rest a).
    assert (Hall : (pre ++ [a]) ++ rest = all)
      by (subst all; rewrite <- app_assoc; reflexivity).
    assert (Hlen : List.length all = S (List.length pre + List.length rest))
      by (subst all; rewrite length_app; simpl; lia).
    subst st'; simpl for_loop.
    destruct (Z.ltb_spec
      (balance st + count_char "{"%char a - count_char "}"%char a) 0) as [Hneg|Hnn].
    + (* break at this line *)
      unfold body; rewrite (proj2 (Z.ltb_lt _ _) Hneg); simpl.
      right; exists (S (List.length pre)).
      fold all in Hsnoc; rewrite Hsnoc, net_snoc, <- Hb, Hp.
      repeat split; [lia | lia | intros; lia | lia].
    + set (st1 := {| i := S (List.length pre);
                     balance := (balance st + count_char "{"%char a
                                 - count_char "}"%char a)%Z;
                     printed := printed st; broke := false |}).
      assert (Hbody : body st (S (List.length pre)) a = st1).
      { unfold body; rewrite (proj2 (Z.ltb_ge _ _) Hnn).
        destruct (_ && _); reflexivity. }
      rewrite Hbody; simpl broke; cbv iota.
      assert (Hlen1 : S (S (List.length pre)) = S (List.length (pre ++ [a])))
        by (rewrite length_app; simpl; lia).
      rewrite Hlen1.
      assert (Hb1 : balance st1 = net (pre ++ [a]))
        by (simpl; rewrite net_snoc, Hb; reflexivity).
      assert (Hsnoc' : (0 <= net (firstn (S (List.length pre)) all))%Z)
        by (fold all in Hsnoc; rewrite Hsnoc, net_snoc, <- Hb; lia).
      destruct (IH (pre ++ [a]) st1) as [[Hall0 Heq] | [L [HL [Hbef [HLneg Heq]]]]];
        [simpl; rewrite length_app; simpl; lia | exact Hb1 | simpl; exact Hp
        | reflexivity | | ];
        rewrite Hall in *; rewrite length_app in *; simpl in *.
      * left; split; [|exact Heq].
        intros j Hj.
        destruct (Nat.eq_dec j (S (List.length pre))) as [->|Hne]; [exact Hsnoc'|].
        apply Hall0; lia.
      * right; exists L; split; [lia|]; split; [|split; [exact HLneg | exact Heq]].
        intros j Hj.
        destruct (Nat.eq_dec j (S (List.length pre))) as [->|Hne]; [exact Hsnoc'|].
        apply Hbef; lia.
Qed.

Lemma scan_outcome (lines : list string) :
  ((forall j, 0 < j <= List.length lines -> (0 <= net (firstn j lines))%Z) /\
   scan lines = {| i := List.length lines; balance := net lines;
                   printed := []; broke := false |})
  \/
  (exists L, 0 < L <= List.length lines /\
     (forall j, 0 < j < L -> (0 <= net (firstn j lines))%Z) /\
     (net (firstn L lines) < 0)%Z /\
     scan lines = {| i := L; balance := net (firstn L lines);
                     printed := [neg_msg L (net (firstn L lines))]; broke := true |}).
Proof.
  exact (for_loop_outcome lines [] init_state eq_refl eq_refl eq_refl eq_refl).
Qed.

Lemma scan_no_neg (lines : list string) :
  (forall j, 0 < j <= List.length lines -> (0 <= net (firstn j lines))%Z) ->
  scan lines = {| i := List.length lines; balance := net lines;
                  printed := []; broke := false |}.
Proof.
  intros Hnn.
  destruct (scan_outcome lines) as [[_ Heq] | [L [HL [_ [Hneg _]]]]];
    [exact Heq|].
  specialize (Hnn L HL); lia.
Qed.

Lemma scan_first_neg (lines : list string) (L : nat) :
  0 < L <= List.length lines ->
  (net (firstn L lines) < 0)%Z ->
  (forall j, 0 < j < L -> (0 <= net (firstn j lines))%Z) ->
  scan lines = {| i := L; balance := net (firstn L lines);
                  printed := [neg_msg L (net (firstn L lines))]; broke := true |}.
Proof.
  intros HL Hneg Hfirst.
  destruct (scan_outcome lines) as [[Hnn _] | [L' [HL' [Hbef [Hneg' Heq]]]]].
  - specialize (Hnn L HL); lia.
  - destruct (Nat.lt_total L L') as [Hlt | [-> | Hgt]].
    + specialize (Hbef L ltac:(lia)); lia.
    + exact Heq.
    + specialize (Hfirst L' ltac:(lia)); lia.
Qed.

Lemma report_nonpos (b : Z) : (b <= 0)%Z -> report b = balance_msg b.
Proof. intros Hb; unfold report; rewrite (proj2 (Z.ltb_ge _ _) Hb); reflexivity. Qed.

Lemma report_pos (b : Z) : (0 < b)%Z -> report b = missing_msg b.
Proof. intros Hb; unfold report; rewrite (proj2 (Z.ltb_lt _ _) Hb); reflexivity. Qed.

Lemma body_clean_eq (st : scan_state) (idx : nat) (line : string) :
  body st idx line = body_clean st idx line.
Proof.
  unfold body, body_clean.
  destruct (Z.ltb _ 0); [reflexivity|].
  destruct (andb _ _); reflexivity.
Qed.

Lemma for_loop_clean_eq (lines : list string) :
  forall idx st, for_loop idx lines st = for_loop_clean idx lines st.
Proof.
  induction lines as [|a lines IH]; intros idx st; simpl; [reflexivity|].
  rewrite body_clean_eq; destruct (broke _); [reflexivity | apply IH].
Qed.

(* ------------------------------------------------------------------ *)
(** * Claims *)

(** C1, as stated (refuted): when the balance first goes negative at
    line 1 with value -1 (input ["}"]), the output is not the single
    negative-balance line: the final report line follows it. *)
Lemma C1_counterexample :
  ~ (forall (lines : list string) (L : nat),
       0 < L <= List.length lines ->
       (net (firstn L lines) < 0)%Z ->
       (forall j, 0 < j < L -> (0 <= net (firstn j lines))%Z) ->
       run_lines lines = [neg_msg L (net (firstn L lines))]).
Proof.
  intros H.
  specialize (H ["}"%string] 1 ltac:(simpl; lia) ltac:(vm_compute; reflexivity)
                ltac:(intros; lia)).
  vm_compute in H; discriminate H.
Qed.

(** C1 (amended): if the running balance first becomes negative at line
    [L], with value [b], the scan stops there: the output is exactly
    [Negative balance at line L: b] followed by [Balance is b], and the
    final loop state is the one obtained from the first [L] lines alone. *)
Theorem C1_first_negative_line (lines : list string) (L : nat)
  (HL : 0 < L <= List.length lines)
  (Hneg : (net (firstn L lines) < 0)%Z)
  (Hfirst : forall j, 0 < j < L -> (0 <= net (firstn j lines))%Z) :
  run_lines lines =
    [neg_msg L (net (firstn L lines)); balance_msg (net (firstn L lines))] /\
  scan lines = scan (firstn L lines).
Proof.
  assert (Hs := scan_first_neg lines L HL Hneg Hfirst).
  assert (Hlen : List.length (firstn L lines) = L)
    by (rewrite length_firstn; lia).
  split.
  - unfold run_lines; rewrite Hs; simpl.
    rewrite report_nonpos by lia; reflexivity.
  - rewrite Hs.
    assert (Hpre : forall j, j <= L -> firstn j (firstn L lines) = firstn j lines).
    { intros j Hj; rewrite firstn_firstn; f_equal; lia. }
    rewrite (scan_first_neg (firstn L lines) L); rewrite ?Hpre; auto; try lia.
    intros j Hj; rewrite Hpre by lia; apply Hfirst; lia.
Qed.

(** C2, as stated (refuted): on input ["}"] the run prints two of the
    message shapes, a negative-balance line and a [Balance is] line. *)
Lemma C2_counterexample :
  run_lines ["}"%string] = [neg_msg 1 (-1); balance_msg (-1)].
Proof. vm_compute; reflexivity. Qed.

(** C2 (amended): every run on a file that was read prints exactly one
    final report, [Missing d closing braces at end of file] (with [d > 0])
    or [Balance is b] (with [b <= 0]); a [Negative balance at line L: b]
    line is printed at most once, only before the report [Balance is b]
    with the same [b < 0]. *)
Theorem C2_output_shapes (lines : list string) :
  (exists d, (0 < d)%Z /\ run_lines lines = [missing_msg d]) \/
  (exists b, (b <= 0)%Z /\ run_lines lines = [balance_msg b]) \/
  (exists L b, (b < 0)%Z /\ run_lines lines = [neg_msg L b; balance_msg b]).
Proof.
  unfold run_lines.
  destruct (scan_outcome lines) as [[_ ->] | [L [_ [_ [Hneg ->]]]]]; simpl.
  - destruct (Z.ltb_spec 0 (net lines)) as [Hp | Hn].
    + left; exists (net lines); rewrite report_pos by exact Hp; auto.
    + right; left; exists (net lines); rewrite report_nonpos by exact Hn; auto.
  - right; right; exists L, (net (firstn L lines)).
    rewrite report_nonpos by lia; auto.
Qed.

(** C3: when there are more [{] than [}] in total and the running
    balance is never negative at the end of a line, the output is
    exactly [Missing d closing braces at end of file] with
    [d = total opens - total closes]. *)
Theorem C3_missing_braces (lines : list string)
  (Hgt : (total_count "}"%char lines < total_count "{"%char lines)%Z)
  (Hnn : forall j, 0 < j <= List.length lines -> (0 <= net (firstn j lines))%Z) :
  run_lines lines =
    [missing_msg (total_count "{"%char lines - total_count "}"%char lines)].
Proof.
  unfold run_lines; rewrite (scan_no_neg lines Hnn); simpl.
  rewrite report_pos by (unfold net; lia); reflexivity.
Qed.

(** C4: when [{] and [}] are equally many and the running balance is
    never negative at the end of a line (in particular for a file with no
    lines), the output is exactly [Balance is 0]. *)
Theorem C4_balanced (lines : list string)
  (Heq : total_count "{"%char lines = total_count "}"%char lines)
  (Hnn : forall j, 0 < j <= List.length lines -> (0 <= net (firstn j lines))%Z) :
  run_lines lines = ["Balance is 0"%string].
Proof.
  unfold run_lines; rewrite (scan_no_neg lines Hnn); simpl.
  replace (net lines) with 0%Z by (unfold net; lia).
  reflexivity.
Qed.

(** C5: loop invariant. Running the loop on the first [k] lines, the
    balance equals the opens minus the closes of lines [1..i], where [i]
    is the last line the loop processed; [i <= k], and [i] is the number
    of lines available when the loop did not break. *)
Theorem C5_balance_invariant (lines : list string) (k : nat) :
  let st := scan (firstn k lines) in
  balance st = net (firstn (i st) lines) /\
  i st <= k /\
  (broke st = false -> i st = Nat.min k (List.length lines)).
Proof.
  intros st; subst st.
  assert (Hk : List.length (firstn k lines) = Nat.min k (List.length lines))
    by apply length_firstn.
  destruct (scan_outcome (firstn k lines))
    as [[_ ->] | [L [HL [_ [_ ->]]]]]; simpl.
  - rewrite Hk.
    assert (Hmin : firstn (Nat.min k (List.length lines)) lines = firstn k lines).
    { destruct (Nat.le_ge_cases k (List.length lines)) as [Hle | Hge].
      - rewrite Nat.min_l by exact Hle; reflexivity.
      - rewrite Nat.min_r by exact Hge.
        rewrite firstn_all, firstn_all2 by exact Hge; reflexivity. }
    rewrite Hmin; split; [reflexivity | split; [lia | intros _; reflexivity]].
  - rewrite Hk in HL; pose proof (Nat.le_min_l k (List.length lines)).
    rewrite firstn_firstn, Nat.min_l by lia.
    split; [reflexivity | split; [lia | discriminate]].
Qed.

(** C6: after the loop, the balance is negative whenever the loop broke,
    and it is strictly positive only when the loop ran through every line
    without the balance being negative at the end of any line; so the
    [else] branch of the report prints a value [<= 0]. *)
Theorem C6_positive_only_when_exhausted (lines : list string) :
  let st := scan lines in
  (broke st = true -> (balance st < 0)%Z) /\
  ((0 < balance st)%Z ->
     broke st = false /\ i st = List.length lines /\
     (forall j, 0 < j <= List.length lines -> (0 <= net (firstn j lines))%Z)) /\
  ((balance st <= 0)%Z -> report (balance st) = balance_msg (balance st)).
Proof.
  intros st; subst st.
  split; [|split; [|apply report_nonpos]].
  - destruct (scan_outcome lines) as [[_ ->] | [L [_ [_ [Hneg ->]]]]];
      simpl; [discriminate | intros _; exact Hneg].
  - destruct (scan_outcome lines) as [[Hnn ->] | [L [_ [_ [Hneg ->]]]]];
      simpl; [auto | lia].
Qed.

(** C7: the branch [if balance == 0 and i > 700: pass] has no effect:
    the script with that branch removed behaves the same on every file
    system. *)
Theorem C7_dead_branch_no_effect (fs : string -> read_result) :
  main fs = main_clean fs.
Proof.
  unfold main, main_clean, run_lines, run_lines_clean, scan.
  destruct (fs path); [reflexivity|].
  rewrite for_loop_clean_eq; reflexivity.
Qed.

(** C8: if opening or decoding the file at the fixed path fails, the
    error is raised out of the script unhandled and nothing has been
    printed. *)
Theorem C8_read_error_propagates (fs : string -> read_result) (e : read_error)
  (Hread : fs path = ReadFailed e) :
  main fs = Raised e [].
Proof. unfold main; rewrite Hread; reflexivity. Qed.

Lemma C8_witness :
  (fun _ : string => ReadFailed DecodeError) path = ReadFailed DecodeError /\
  main (fun _ => ReadFailed DecodeError) = Raised DecodeError [].
Proof.
  split; [reflexivity|].
  apply (C8_read_error_propagates (fun _ => ReadFailed DecodeError) DecodeError).
  reflexivity.
Defined.

(** C9: the run is determined by the content of the file at the fixed
    path: two runs seeing the same content give the same outcome and the
    same output. *)
Theorem C9_deterministic (fs1 fs2 : string -> read_result)
  (Hsame : fs1 path = fs2 path) :
  main fs1 = main fs2.
Proof. unfold main; rewrite Hsame; reflexivity. Qed.

Lemma C9_witness :
  (fun _ : string => ReadText "}{") path =
    (fun p : string => if String.eqb p path then ReadText "}{" else ReadFailed IOError) path /\
  main (fun _ => ReadText "}{") =
    main (fun p => if String.eqb p path then ReadText "}{" else ReadFailed IOError).
Proof.
  split; [reflexivity|].
  apply C9_deterministic; reflexivity.
Defined.

(** C10: when the loop breaks, the balance is not changed afterwards:
    the final report prints the same value as the negative-balance
    message. *)
Theorem C10_break_frame (lines : list string)
  (Hbroke : broke (scan lines) = true) :
  exists L b,
    printed (scan lines) = [neg_msg L b] /\ balance (scan lines) = b /\
    run_lines lines = [neg_msg L b; balance_msg b].
Proof.
  unfold run_lines.
  destruct (scan_outcome lines) as [[_ Heq] | [L [_ [_ [Hneg Heq]]]]];
    rewrite Heq in *; simpl in *; [discriminate|].
  exists L, (net (firstn L lines)).
  rewrite report_nonpos by lia; auto.
Qed.

Lemma C10_witness :
  broke (scan ["{}"; "}}"; "{"]%string) = true /\
  exists L b,
    printed (scan ["{}"; "}}"; "{"]%string) = [neg_msg L b] /\
    balance (scan ["{}"; "}}"; "{"]%string) = b /\
    run_lines ["{}"; "}}"; "{"]%string = [neg_msg L b; balance_msg b].
Proof.
  split; [vm_compute; reflexivity|].
  apply C10_break_frame; vm_compute; reflexivity.
Defined.

Lemma C1_witness :
  (0 < 2 <= List.length ["{}"; "}}"; "{"]%string) /\
  (net (firstn 2 ["{}"; "}}"; "{"]%string) < 0)%Z /\
  (forall j, 0 < j < 2 -> (0 <= net (firstn j ["{}"; "}}"; "{"]%string))%Z) /\
  run_lines ["{}"; "}}"; "{"]%string =
    [neg_msg 2 (net (firstn 2 ["{}"; "}}"; "{"]%string));
     balance_msg (net (firstn 2 ["{}"; "}}"; "{"]%string))] /\
  scan ["{}"; "}}"; "{"]%string = scan (firstn 2 ["{}"; "}}"; "{"]%string).
Proof.
  assert (H1 : 0 < 2 <= List.length ["{}"; "}}"; "{"]%string) by (simpl; lia).
  assert (H2 : (net (firstn 2 ["{}"; "}}"; "{"]%string) < 0)%Z)
    by (vm_compute; reflexivity).
  assert (H3 : forall j, 0 < j < 2 -> (0 <= net (firstn j ["{}"; "}}"; "{"]%string))%Z).
  { intros j Hj; replace j with 1 by lia; vm_compute; discriminate. }
  split; [exact H1|]; split; [exact H2|]; split; [exact H3|].
  apply (C1_first_negative_line _ 2 H1 H2 H3).
Defined.

Lemma C3_witness :
  (total_count "}"%char ["{{"; "}"]%string < total_count "{"%char ["{{"; "}"]%string)%Z /\
  (forall j, 0 < j <= List.length ["{{"; "}"]%string ->
     (0 <= net (firstn j ["{{"; "}"]%string))%Z) /\
  run_lines ["{{"; "}"]%string =
    [missing_msg (total_count "{"%char ["{{"; "}"]%string
                  - total_count "}"%char ["{{"; "}"]%string)].
Proof.
  assert (H1 : (total_count "}"%char ["{{"; "}"]%string
                < total_count "{"%char ["{{"; "}"]%string)%Z)
    by (vm_compute; reflexivity).
  assert (H2 : forall j, 0 < j <= List.length ["{{"; "}"]%string ->
                 (0 <= net (firstn j ["{{"; "}"]%string))%Z).
  { intros j Hj; simpl in Hj.
    destruct (Nat.eq_dec j 1) as [->|Hne];
      [|replace j with 2 by lia]; vm_compute; discriminate. }
  split; [exact H1|]; split; [exact H2|].
  apply (C3_missing_braces _ H1 H2).
Defined.

Lemma C4_witness :
  total_count "{"%char ["{"; "}"]%string = total_count "}"%char ["{"; "}"]%string /\
  (forall j, 0 < j <= List.length ["{"; "}"]%string ->
     (0 <= net (firstn j ["{"; "}"]%string))%Z) /\
  run_lines ["{"; "}"]%string = ["Balance is 0"%string].
Proof.
  assert (H1 : total_count "{"%char ["{"; "}"]%string
               = total_count "}"%char ["{"; "}"]%string) by reflexivity.
  assert (H2 : forall j, 0 < j <= List.length ["{"; "}"]%string ->
                 (0 <= net (firstn j ["{"; "}"]%string))%Z).
  { intros j Hj; simpl in Hj.
    destruct (Nat.eq_dec j 1) as [->|Hne];
      [|replace j with 2 by lia]; vm_compute; discriminate. }
  split; [exact H1|]; split; [exact H2|].
  apply (C4_balanced _ H1 H2).
Defined.

(* ------------------------------------------------------------------ *)
(** * Reading the file: [readlines] in text mode *)

Lemma string_app_assoc (a b c : string) :
  ((a ++ b) ++ c)%string = (a ++ (b ++ c))%string.
Proof. induction a as [|x a IH]; simpl; [reflexivity | rewrite IH; reflexivity]. Qed.

Lemma string_app_nil_r (a : string) : (a ++ "")%string = a.
Proof. induction a as [|x a IH]; simpl; [reflexivity | rewrite IH; reflexivity]. Qed.

Lemma count_char_app (c : ascii) (a b : string) :
  count_char c (a ++ b) = (count_char c a + count_char c b)%Z.
Proof. induction a as [|x a IH]; simpl; [reflexivity | rewrite IH; lia]. Qed.

Lemma count_char_equation_string (c d : ascii) (t : string) :
  count_char c (String d t) = ((if Ascii.eqb c d then 1 else 0) + count_char c t)%Z.
Proof. reflexivity. Qed.

Lemma count_char_nonneg (c : ascii) (s : string) : (0 <= count_char c s)%Z.
Proof. induction s as [|x s IH]; simpl; [lia | destruct (Ascii.eqb c x); lia]. Qed.

Lemma total_count_join (c : ascii) (lines : list string) :
  total_count c lines = count_char c (join_lines lines).
Proof.
  induction lines as [|l lines IH]; simpl; [reflexivity|].
  rewrite count_char_app, IH; reflexivity.
Qed.

Lemma join_split_lines (s : string) :
  forall cur, join_lines (split_lines s cur) = (cur ++ s)%string.
Proof.
  induction s as [|c t IH]; intros cur; simpl.
  - destruct cur as [|x cur]; simpl; [reflexivity|].
    rewrite !string_app_nil_r; reflexivity.
  - destruct (Ascii.eqb c "010"%char); simpl; rewrite IH;
      rewrite string_app_assoc; reflexivity.
Qed.

(** Splitting into lines loses nothing: joining what [readlines]
    returned gives back the text with its newlines translated. *)
Theorem readlines_join (s : string) :
  join_lines (readlines s) = translate_newlines s.
Proof. unfold readlines; rewrite join_split_lines; reflexivity. Qed.

Lemma translate_newlines_cr_other (y : ascii) (t : string) :
  y <> "010"%char ->
  translate_newlines (String "013"%char (String y t)) =
  String "010"%char (translate_newlines (String y t)).
Proof.
  intros Hy.
  change (translate_newlines (String "013"%char (String y t))) with
    (if Ascii.eqb y "010"%char then String "010"%char (translate_newlines t)
     else String "010"%char (translate_newlines (String y t))).
  rewrite (proj2 (Ascii.eqb_neq _ _) Hy); reflexivity.
Qed.

Lemma translate_newlines_count_len (c : ascii) (n : nat) :
  c <> "013"%char -> c <> "010"%char ->
  forall s, String.length s <= n ->
  count_char c (translate_newlines s) = count_char c s.
Proof.
  intros Hr Hn; induction n as [|n IH]; intros s Hs.
  - destruct s; simpl in Hs; [reflexivity | lia].
  - assert (Hcr : Ascii.eqb c "013"%char = false) by (apply Ascii.eqb_neq; exact Hr).
    assert (Hcn : Ascii.eqb c "010"%char = false) by (apply Ascii.eqb_neq; exact Hn).
    destruct s as [|x t]; [reflexivity|]; simpl in Hs.
    destruct (Ascii.eqb_spec x "013"%char) as [->|Hx].
    + destruct t as [|y t'].
      * simpl; rewrite Hcn, Hcr; reflexivity.
      * destruct (Ascii.eqb_spec y "010"%char) as [->|Hy].
        -- change (count_char c (String "010"%char (translate_newlines t'))
                   = count_char c (String "013"%char (String "010"%char t'))).
           rewrite !count_char_equation_string, Hcn, Hcr, IH
             by (simpl in Hs; lia); reflexivity.
        -- rewrite translate_newlines_cr_other by exact Hy.
           rewrite !count_char_equation_string, Hcn, Hcr, IH
             by (simpl in Hs |- *; lia).
           reflexivity.
    + assert (Htr : translate_newlines (String x t) = String x (translate_newlines t))
        by (simpl; rewrite (proj2 (Ascii.eqb_neq _ _) Hx); reflexivity).
      rewrite Htr, !count_char_equation_string, IH by lia; reflexivity.
Qed.

(** Reading in text mode changes no character other than line ends: the
    lines returned by [readlines] hold exactly as many [{] and [}] as the
    text of the file. *)
Theorem readlines_brace_counts (s : string) :
  total_count "{"%char (readlines s) = count_char "{"%char s /\
  total_count "}"%char (readlines s) = count_char "}"%char s.
Proof.
  rewrite !total_count_join, !readlines_join.
  split; apply (translate_newlines_count_len _ (String.length s));
    try discriminate; lia.
Qed.

Lemma split_lines_shape (s : string) :
  forall cur, count_char "010"%char cur = 0%Z ->
  forall k l, nth_error (split_lines s cur) k = Some l ->
  exists p, count_char "010"%char p = 0%Z /\
    (l = (p ++ String "010"%char "")%string \/
     (l = p /\ p <> ""%string /\ S k = List.length (split_lines s cur))).
Proof.
  induction s as [|c t IH]; intros cur Hcur k l Hk.
  - destruct cur as [|x cur']; simpl in Hk.
    + destruct k; discriminate.
    + destruct k as [|k]; [|destruct k; discriminate].
      injection Hk as <-; exists (String x cur'); split; [exact Hcur|].
      right; split; [reflexivity | split; [discriminate | reflexivity]].
  - simpl in Hk |- *.
    destruct (Ascii.eqb_spec c "010"%char) as [->|Hc].
    + destruct k as [|k]; simpl in Hk.
      * injection Hk as <-; exists cur; split; [exact Hcur | left; reflexivity].
      * destruct (IH ""%string eq_refl k l Hk) as [p [Hp [Hl | [Hl [Hne Hlen]]]]];
          exists p; split; auto.
        right; simpl; auto.
    + apply (IH (cur ++ String c "")%string); [|exact Hk].
      rewrite count_char_app, count_char_equation_string.
      destruct (Ascii.eqb_spec "010"%char c) as [He|_]; [congruence|].
      simpl; lia.
Qed.

(** Every line returned by [readlines] holds a newline only as its last
    character; every line but the last ends in a newline, and a last line
    without one is not empty. *)
Theorem readlines_line_shape (s : string) (k : nat) (l : string)
  (Hk : nth_error (readlines s) k = Some l) :
  exists p, count_char "010"%char p = 0%Z /\
    (l = (p ++ String "010"%char "")%string \/
     (l = p /\ p <> ""%string /\ S k = List.length (readlines s))).
Proof. exact (split_lines_shape _ ""%string eq_refl k l Hk). Qed.

Lemma readlines_line_shape_witness :
  nth_error (readlines (String "{" (String "010" "}"))%string) 1 = Some "}"%string /\
  exists p, count_char "010"%char p = 0%Z /\
    ("}"%string = (p ++ String "010"%char "")%string \/
     ("}"%string = p /\ p <> ""%string /\
      S 1 = List.length (readlines (String "{" (String "010" "}"))%string))).
Proof.
  split; [reflexivity|].
  apply readlines_line_shape; reflexivity.
Defined.

(** Without a [break], the final balance is the number of [{] minus the
    number of [}] in the whole text of the file, so the script prints the
    report for that difference alone. *)
Theorem main_no_break_file_counts (fs : string -> read_result) (s : string)
  (Hread : fs path = ReadText s)
  (Hnb : broke (scan (readlines s)) = false) :
  main fs = Finished [report (count_char "{"%char s - count_char "}"%char s)%Z].
Proof.
  unfold main; rewrite Hread; f_equal.
  unfold run_lines.
  destruct (scan_outcome (readlines s)) as [[_ Heq] | [L [_ [_ [_ Heq]]]]];
    rewrite Heq in *; simpl in *; [|discriminate].
  destruct (readlines_brace_counts s) as [Ho Hc].
  unfold net; rewrite Ho, Hc; reflexivity.
Qed.

Lemma main_no_break_file_counts_witness :
  (fun _ : string => ReadText "{{}"%string) path = ReadText "{{}"%string /\
  broke (scan (readlines "{{}"%string)) = false /\
  main (fun _ => ReadText "{{}"%string) =
    Finished [report (count_char "{"%char "{{}"%string - count_char "}"%char "{{}"%string)%Z].
Proof.
  split; [reflexivity|]; split; [vm_compute; reflexivity|].
  apply main_no_break_file_counts; [reflexivity | vm_compute; reflexivity].
Defined.

Lemma total_count_firstn_le (c : ascii) (lines : list string) (j : nat) :
  (total_count c (firstn j lines) <= total_count c lines)%Z.
Proof.
  rewrite <- (firstn_skipn j lines) at 2.
  rewrite total_count_app.
  assert (H : forall l, (0 <= total_count c l)%Z).
  { induction l as [|x l IH]; simpl; [lia|].
    pose proof (count_char_nonneg c x); lia. }
  specialize (H (skipn j lines)); lia.
Qed.

(** A file with no brace at all (an empty file in particular) gives
    exactly [Balance is 0]. *)
Theorem main_no_braces (fs : string -> read_result) (s : string)
  (Hread : fs path = ReadText s)
  (Hopen : count_char "{"%char s = 0%Z)
  (Hclose : count_char "}"%char s = 0%Z) :
  main fs = Finished ["Balance is 0"%string].
Proof.
  unfold main; rewrite Hread; f_equal.
  destruct (readlines_brace_counts s) as [Ho Hc].
  assert (Hpre : forall c j, (0 <= total_count c (firstn j (readlines s)))%Z).
  { intros c j; induction (firstn j (readlines s)) as [|x l IH]; simpl; [lia|].
    pose proof (count_char_nonneg c x); lia. }
  unfold run_lines; rewrite scan_no_neg.
  - simpl; unfold net; rewrite Ho, Hc, Hopen, Hclose; reflexivity.
  - intros j _; unfold net.
    pose proof (total_count_firstn_le "{"%char (readlines s) j).
    pose proof (total_count_firstn_le "}"%char (readlines s) j).
    pose proof (Hpre "{"%char j); pose proof (Hpre "}"%char j); lia.
Qed.

Lemma main_no_braces_witness :
  (fun _ : string => ReadText ""%string) path = ReadText ""%string /\
  count_char "{"%char ""%string = 0%Z /\ count_char "}"%char ""%string = 0%Z /\
  main (fun _ => ReadText ""%string) = Finished ["Balance is 0"%string].
Proof.
  split; [reflexivity|]; split; [reflexivity|]; split; [reflexivity|].
  apply (main_no_braces _ ""%string); reflexivity.
Defined.

(** Once the loop has broken, the lines after it are never looked at:
    appending any lines to the input does not change what is printed. *)
Theorem run_lines_break_ignores_rest (lines extra : list string)
  (Hbroke : broke (scan lines) = true) :
  run_lines (lines ++ extra) = run_lines lines.
Proof.
  destruct (scan_outcome lines) as [[_ Heq] | [L [HL [Hbef [Hneg Heq]]]]];
    [rewrite Heq in Hbroke; discriminate|].
  assert (Hpre : forall j, j <= List.length lines ->
                 firstn j (lines ++ extra) = firstn j lines)
    by (intros; apply firstn_le_app; lia).
  assert (Hs : scan (lines ++ extra) = scan lines).
  { rewrite Heq, (scan_first_neg (lines ++ extra) L).
    - rewrite Hpre by lia; reflexivity.
    - rewrite length_app; lia.
    - rewrite Hpre by lia; exact Hneg.
    - intros j Hj; rewrite Hpre by lia; apply Hbef; exact Hj. }
  unfold run_lines; rewrite Hs; reflexivity.
Qed.

Lemma run_lines_break_ignores_rest_witness :
  broke (scan ["}"%string]) = true /\
  run_lines (["}"%string] ++ ["{{"%string]) = run_lines ["}"%string].
Proof.
  split; [vm_compute; reflexivity|].
  apply run_lines_break_ignores_rest; vm_compute; reflexivity.
Defined.

(** The balance reported at a [break] is negative but no lower than minus
    the number of [}] on the line where the loop stopped, since it was not
    negative before that line; that line is one of the input lines. *)
Theorem break_value_bound (lines : list string)
  (Hbroke : broke (scan lines) = true) :
  1 <= i (scan lines) <= List.length lines /\
  (- count_char "}"%char (nth (i (scan lines) - 1) lines ""%string)
     <= balance (scan lines) < 0)%Z.
Proof.
  destruct (scan_outcome lines) as [[_ Heq] | [L [HL [Hbef [Hneg Heq]]]]];
    rewrite Heq in *; simpl in *; [discriminate|].
  split; [lia|]; split; [|exact Hneg].
  destruct (nth_split lines ""%string (n := L - 1) ltac:(lia))
    as [l1 [l2 [Hl Hlen]]].
  set (a := nth (L - 1) lines ""%string) in *.
  assert (HL1 : firstn L lines = l1 ++ [a]).
  { rewrite Hl; replace L with (S (List.length l1)) by lia.
    apply firstn_snoc. }
  assert (Hl1 : (0 <= net l1)%Z).
  { destruct (Nat.eq_dec (L - 1) 0) as [H0 | H0].
    - destruct l1; [reflexivity | simpl in Hlen; lia].
    - specialize (Hbef (L - 1) ltac:(lia)).
      rewrite Hl, <- Hlen, firstn_le_app, firstn_all in Hbef by lia.
      exact Hbef. }
  rewrite HL1, net_snoc.
  pose proof (count_char_nonneg "{"%char a); lia.
Qed.

Lemma break_value_bound_witness :
  broke (scan ["{"; "}}}"; "{"]%string) = true /\
  1 <= i (scan ["{"; "}}}"; "{"]%string) <= List.length ["{"; "}}}"; "{"]%string /\
  (- count_char "}"%char (nth (i (scan ["{"; "}}}"; "{"]%string) - 1)
                             ["{"; "}}}"; "{"]%string ""%string)
     <= balance (scan ["{"; "}}}"; "{"]%string) < 0)%Z.
Proof.
  split; [vm_compute; reflexivity|].
  apply break_value_bound; vm_compute; reflexivity.
Defined.

(* ------------------------------------------------------------------ *)
(** * Printing integers *)











